(** * The Command pattern script [index.js]: a heap model and its properties

    [index.js] defines two order managers.  [OrderManager] exposes
    [placeOrder], [trackOrder] and [cancelOrder]; [OrderManager1] exposes a
    single [execute] that runs a [Command] against its [orders] array.

    JavaScript arrays and objects are shared by reference: [orders.push]
    inside a command changes the array the manager holds, whereas
    [orders = orders.filter(..)] only rebinds a parameter.  The model keeps
    that distinction: arrays and objects live in a heap, values refer to
    them by location, and every operation is a state transformer that
    either returns or throws. *)

From stdpp Require Import gmap strings list fin_maps.

(** ** Values, objects, program state *)

Definition loc := positive.

(** The JavaScript values the script can meet: [undefined], [null], string
    primitives and references to heap objects. *)
Inductive value :=
  | VUndefined
  | VNull
  | VString (s : string)
  | VRef (l : loc).

#[global] Instance value_eq_dec : EqDecision value.
Proof. solve_decision. Defined.

(** A heap object: its own named properties and, when it is an Array, its
    elements in index order ([None] for a plain object). *)
Record obj := Obj {
  fields : gmap string value;
  elems : option (list value)
}.

Definition empty_object : obj := Obj ∅ None.
Definition array_of (l : list value) : obj := Obj ∅ (Some l).

(** The heap, and the lines written by [console.log], oldest first. *)
Record state := State {
  heap : gmap loc obj;
  console : list string
}.

(** [TypeError] is the only exception the script can raise.  [Dangling]
    marks a reference to a location outside the heap; no JavaScript program
    can hold one, the model needs it because [loc] is a plain number. *)
Inductive exn := TypeError | Dangling.

Inductive outcome (A : Type) :=
  | Returns (a : A) (σ : state)
  | Throws (e : exn) (σ : state).
Arguments Returns {A} a σ.
Arguments Throws {A} e σ.

Definition M (A : Type) : Type := state → outcome A.

Definition ret {A} (a : A) : M A := fun σ => Returns a σ.

Definition bind {A B} (m : M A) (k : A → M B) : M B :=
  fun σ => match m σ with
           | Returns a σ' => k a σ'
           | Throws e σ' => Throws e σ'
           end.

Definition throw {A} (e : exn) : M A := fun σ => Throws e σ.

Declare Scope js_scope.
Delimit Scope js_scope with js.
Notation "'let!' x ':=' m 'in' k" := (bind m (fun x => k))
  (at level 10, x name, m at level 100, k at level 200) : js_scope.
Notation "m ';;;' k" := (bind m (fun _ => k))
  (at level 100, k at level 200, right associativity) : js_scope.
Local Open Scope js_scope.

(** ** Primitive operations *)

(** [new]-style allocation at a location the heap does not use yet. *)
Definition alloc (o : obj) : M loc :=
  fun σ => let l := fresh (dom (heap σ)) in
           Returns l (State (<[l := o]> (heap σ)) (console σ)).

(** [v.k] for the property names the script reads, [orders] and [id].
    Reading a property of [undefined] or [null] throws; a string primitive
    has neither name (nor has [String.prototype]), so the read gives
    [undefined]; an object gives its own property or [undefined]. *)
Definition get_field (v : value) (k : string) : M value :=
  fun σ => match v with
           | VUndefined | VNull => Throws TypeError σ
           | VString _ => Returns VUndefined σ
           | VRef l =>
               match heap σ !! l with
               | Some o => Returns (default VUndefined (fields o !! k)) σ
               | None => Throws Dangling σ
               end
           end.

(** [this.k = v] on an object reference. *)
Definition set_field (this : loc) (k : string) (v : value) : M unit :=
  fun σ => match heap σ !! this with
           | Some o =>
               Returns () (State (<[this := Obj (<[k := v]> (fields o)) (elems o)]> (heap σ))
                                 (console σ))
           | None => Throws Dangling σ
           end.

(** [v.push(x)]: appends in place to the array [v] refers to.  On anything
    else [v.push] is not a function and the call throws.  The new length
    that [push] returns is dropped at both call sites, hence [unit]. *)
Definition array_push (v x : value) : M unit :=
  fun σ => match v with
           | VRef l =>
               match heap σ !! l with
               | Some (Obj f (Some es)) =>
                   Returns () (State (<[l := Obj f (Some (es ++ [x]))]> (heap σ)) (console σ))
               | Some (Obj _ None) => Throws TypeError σ
               | None => Throws Dangling σ
               end
           | _ => Throws TypeError σ
           end.

(** The callback of [filter] runs on the elements in index order and the
    elements it accepts are kept, in that order. *)
Fixpoint filter_elems (p : value → M bool) (es : list value) : M (list value) :=
  match es with
  | [] => ret []
  | x :: rest =>
      let! keep := p x in
      let! kept := filter_elems p rest in
      ret (if keep then x :: kept else kept)
  end.

(** [v.filter(p)]: a NEW array holding the accepted elements; the array [v]
    refers to is left as it is. *)
Definition array_filter (v : value) (p : value → M bool) : M value :=
  match v with
  | VRef l =>
      fun σ => match heap σ !! l with
               | Some (Obj _ (Some es)) =>
                   (let! kept := filter_elems p es in
                    let! l' := alloc (array_of kept) in
                    ret (VRef l')) σ
               | Some (Obj _ None) => Throws TypeError σ
               | None => Throws Dangling σ
               end
  | _ => throw TypeError
  end.

(** [a !== b].  On these values strict equality is equality of the model:
    strings by content, references by location. *)
Definition strict_neq (a b : value) : bool := negb (bool_decide (a = b)).

(** [console.log(s)] records the line and returns [undefined]. *)
Definition console_log (s : string) : M value :=
  fun σ => Returns VUndefined (State (heap σ) (console σ ++ [s])).

(** ** class OrderManager *)

(** [constructor() { this.orders = []; }] run by [new]. *)
Definition new_OrderManager : M loc :=
  let! this := alloc empty_object in
  let! orders := alloc (array_of []) in
  set_field this "orders" (VRef orders);;;
  ret this.

Definition placeOrder (this : loc) (order id : string) : M string :=
  let! orders := get_field (VRef this) "orders" in
  array_push orders (VString id);;;
  ret ("You have successfully ordered " +:+ order +:+ " (" +:+ id +:+ ")").

Definition trackOrder (this : loc) (id : string) : M string :=
  ret ("Your order " +:+ id +:+ " will arrive in 20 minutes.").

Definition cancelOrder (this : loc) (id : string) : M string :=
  let! orders := get_field (VRef this) "orders" in
  let! kept := array_filter orders (fun order => ret (strict_neq order (VString id))) in
  set_field this "orders" kept;;;
  ret ("You have canceled your order " +:+ id).

(** ** class Command, class OrderManager1 *)

(** A function value: it receives the argument list of the call; a
    parameter with no argument is [undefined]. *)
Definition behavior := list value → M value.

Record Command := { cmd_execute : behavior }.

Definition arg (n : nat) (args : list value) : value := default VUndefined (args !! n).

Definition new_OrderManager1 : M loc :=
  let! this := alloc empty_object in
  let! orders := alloc (array_of []) in
  set_field this "orders" (VRef orders);;;
  ret this.

(** [execute(command, ...args) { return command.execute(this.orders, ...args); }] *)
Definition execute (this : loc) (command : Command) (args : list value) : M value :=
  let! orders := get_field (VRef this) "orders" in
  cmd_execute command (orders :: args).

Definition PlaceOrderCommand (order id : string) : Command :=
  {| cmd_execute := fun args =>
       let orders := arg 0 args in
       array_push orders (VString id);;;
       console_log ("You have successfully ordered " +:+ order +:+ " (" +:+ id +:+ ")");;;
       ret VUndefined |}.

(** The assignment [orders = orders.filter(..)] rebinds the parameter: the
    filtered array is reachable from nothing once the function returns. *)
Definition CancelOrderCommand (id : string) : Command :=
  {| cmd_execute := fun args =>
       let orders := arg 0 args in
       let! orders := array_filter orders (fun order =>
                        let! order_id := get_field order "id" in
                        ret (strict_neq order_id (VString id))) in
       console_log ("You have canceled your order " +:+ id);;;
       ret VUndefined |}.

Definition TrackOrderCommand (id : string) : Command :=
  {| cmd_execute := fun args =>
       console_log ("Your order " +:+ id +:+ " will arrive in 20 minutes.") |}.

(** ** Observing a manager *)

(** The array [this.orders] refers to, and its elements: the manager's
    internal collection. *)
Definition orders_of (σ : state) (this : loc) : option loc :=
  match heap σ !! this with
  | Some o => match fields o !! "orders" with
              | Some (VRef a) => Some a
              | _ => None
              end
  | None => None
  end.

Definition collection (σ : state) (this : loc) : option (list value) :=
  match orders_of σ this with
  | Some a => match heap σ !! a with
              | Some o => elems o
              | None => None
              end
  | None => None
  end.

Definition is_string (v : value) : bool :=
  match v with VString _ => true | _ => false end.

(** [sub] occurs in [s]. *)
Definition contains (sub s : string) : Prop := ∃ pre post, s = pre +:+ sub +:+ post.

(** The state the script starts in. *)
Definition initial : state := State ∅ [].

(** Number of times the identifier [id] occurs in a collection. *)
Definition occurrences (id : string) (l : list value) : nat :=
  count_occ value_eq_dec l (VString id).

(** An operation terminates normally: it returns, it does not throw. *)
Definition returns {A} (m : M A) (σ : state) : Prop := ∃ a σ', m σ = Returns a σ'.

(** ** The top-level script *)

(** Lines 25 to 29. *)
Definition main_direct : M loc :=
  let! manager := new_OrderManager in
  placeOrder manager "yuca" "311";;;
  trackOrder manager "311";;;
  cancelOrder manager "311";;;
  ret manager.

(** Lines 79 to 83; [new] applied to a factory that returns an object gives
    that object. *)
Definition main_dispatch : M loc :=
  let! manager2 := new_OrderManager1 in
  execute manager2 (PlaceOrderCommand "Pad Thai" "1234") [];;;
  execute manager2 (TrackOrderCommand "1234") [];;;
  execute manager2 (CancelOrderCommand "1234") [];;;
  ret manager2.

(** ** Sample states *)

(** A manager at location 1 whose array, at location 2, holds the
    identifier 311 twice and 42 once: what three [placeOrder] calls (or
    three executed [PlaceOrderCommand]s) leave behind. *)
Definition sample_orders : list value := [VString "311"; VString "42"; VString "311"].

Definition sample : state :=
  State {[ 1%positive := Obj {[ "orders" := VRef 2%positive ]} None;
           2%positive := array_of sample_orders ]} [].

(** The same manager, holding an object with an [id] property and a hole
    left by a [placeOrder] call without identifier. *)
Definition sample_objects : state :=
  State {[ 1%positive := Obj {[ "orders" := VRef 2%positive ]} None;
           2%positive := array_of [VRef 3%positive];
           3%positive := Obj {[ "id" := VString "1234" ]} None ]} [].

Definition sample_hole : state :=
  State {[ 1%positive := Obj {[ "orders" := VRef 2%positive ]} None;
           2%positive := array_of [VString "311"; VUndefined] ]} [].

(** The whole file: lines 25 to 29, then lines 79 to 83. *)
Definition main : M (loc * loc) :=
  let! manager := main_direct in
  let! manager2 := main_dispatch in
  ret (manager, manager2).

(** ** Kinds of array elements *)

(** [undefined] and [null]: the values whose properties cannot be read. *)
Definition nullish (v : value) : bool :=
  match v with VUndefined | VNull => true | _ => false end.

(** Every reference a JavaScript value holds is to an object that exists. *)
Definition readable (σ : state) (v : value) : bool :=
  match v with
  | VRef l => bool_decide (is_Some (heap σ !! l))
  | _ => true
  end.

(** What [v.id] evaluates to when [v] is a string or an existing object. *)
Definition id_of (σ : state) (v : value) : value :=
  match v with
  | VRef l => match heap σ !! l with
              | Some o => default VUndefined (fields o !! "id")
              | None => VUndefined
              end
  | _ => VUndefined
  end.

(** [v] is something other than an Array: a primitive or a plain object. *)
Definition not_an_array (σ : state) (v : value) : bool :=
  match v with
  | VRef l => match heap σ !! l with
              | Some o => bool_decide (elems o = None)
              | None => false
              end
  | _ => true
  end.

(** Two managers, each with an array of its own. *)
Definition sample_two : state :=
  State {[ 1%positive := Obj {[ "orders" := VRef 2%positive ]} None;
           2%positive := array_of sample_orders;
           3%positive := Obj {[ "orders" := VRef 4%positive ]} None;
           4%positive := array_of [VString "9"] ]} [].

(** Two managers whose [orders] fields refer to one array, as after
    [other.orders = manager.orders]. *)
Definition sample_shared : state :=
  State {[ 1%positive := Obj {[ "orders" := VRef 2%positive ]} None;
           2%positive := array_of sample_orders;
           3%positive := Obj {[ "orders" := VRef 2%positive ]} None ]} [].

(** ** Callers that make a sequence of calls *)

(** One call on an [OrderManager], and a caller making such calls one after
    the other, collecting the strings returned. *)
Inductive call :=
  | PlaceOrder (order id : string)
  | TrackOrder (id : string)
  | CancelOrder (id : string).

Definition perform (this : loc) (c : call) : M string :=
  match c with
  | PlaceOrder order id => placeOrder this order id
  | TrackOrder id => trackOrder this id
  | CancelOrder id => cancelOrder this id
  end.

Fixpoint perform_all (this : loc) (cs : list call) : M (list string) :=
  match cs with
  | [] => ret []
  | c :: rest =>
      let! s := perform this c in
      let! ss := perform_all this rest in
      ret (s :: ss)
  end.

(** The effect of one call on a sequence of identifiers. *)
Definition after_call (l : list value) (c : call) : list value :=
  match c with
  | PlaceOrder _ id => l ++ [VString id]
  | TrackOrder _ => l
  | CancelOrder id => remove value_eq_dec (VString id) l
  end.

(** The three factories, and a caller handing their commands to [execute]
    one after the other with no extra argument. *)
Inductive factory :=
  | Place (order id : string)
  | Track (id : string)
  | Cancel (id : string).

Definition command_of (f : factory) : Command :=
  match f with
  | Place order id => PlaceOrderCommand order id
  | Track id => TrackOrderCommand id
  | Cancel id => CancelOrderCommand id
  end.

Fixpoint execute_all (this : loc) (fs : list factory) : M unit :=
  match fs with
  | [] => ret ()
  | f :: rest => execute this (command_of f) [];;; execute_all this rest
  end.

(** The identifiers of the [Place] commands, in order, and the line each
    command logs. *)
Fixpoint placed (fs : list factory) : list value :=
  match fs with
  | [] => []
  | Place _ id :: rest => VString id :: placed rest
  | _ :: rest => placed rest
  end.

Definition log_line (f : factory) : string :=
  match f with
  | Place order id => "You have successfully ordered " +:+ order +:+ " (" +:+ id +:+ ")"
  | Track id => "Your order " +:+ id +:+ " will arrive in 20 minutes."
  | Cancel id => "You have canceled your order " +:+ id
  end.

(** * Properties *)

(** ** The monad *)

Lemma bind_Returns {A B} (m : M A) (k : A → M B) σ a σ' :
  m σ = Returns a σ' → bind m k σ = k a σ'.
Proof. intros H. unfold bind. by rewrite H. Qed.

Lemma bind_Throws {A B} (m : M A) (k : A → M B) σ e σ' :
  m σ = Throws e σ' → bind m k σ = Throws e σ'.
Proof. intros H. unfold bind. by rewrite H. Qed.

(** ** Substrings *)

Lemma string_app_assoc (a b c : string) : (a +:+ b) +:+ c = a +:+ (b +:+ c).
Proof.
  induction a as [|ch a IH]; [done|].
  change (String ch ((a +:+ b) +:+ c) = String ch (a +:+ (b +:+ c))). by rewrite IH.
Qed.

Lemma contains_intro (pre sub post : string) : contains sub (pre +:+ sub +:+ post).
Proof. by exists pre, post. Qed.

(** ** Observations and the heap *)

Lemma collection_Some σ this l :
  collection σ this = Some l ↔
  ∃ a o, orders_of σ this = Some a ∧ heap σ !! a = Some o ∧ elems o = Some l.
Proof.
  unfold collection. split.
  - destruct (orders_of σ this) as [a|]; [|done].
    destruct (heap σ !! a) as [o|] eqn:Ha; [|done]. intros He. by exists a, o.
  - intros (a & o & -> & -> & He). done.
Qed.

Lemma orders_of_allocated σ this a : orders_of σ this = Some a → is_Some (heap σ !! this).
Proof. unfold orders_of. destruct (heap σ !! this); [eauto | done]. Qed.

Lemma get_orders σ this a :
  orders_of σ this = Some a → get_field (VRef this) "orders" σ = Returns (VRef a) σ.
Proof.
  unfold orders_of, get_field. destruct (heap σ !! this) as [o|]; [|done].
  destruct (fields o !! "orders") as [[]|]; try done. by intros [= ->].
Qed.

(** Replacing the elements of an object changes nobody's [orders] field. *)
Lemma orders_of_set_elems h c c' this a o es :
  h !! a = Some o →
  orders_of (State (<[a := Obj (fields o) es]> h) c') this = orders_of (State h c) this.
Proof.
  intros Ha. unfold orders_of; simpl. destruct (decide (a = this)) as [->|Hne].
  - by rewrite lookup_insert_eq, Ha.
  - by rewrite lookup_insert_ne.
Qed.

(** A newly allocated object is invisible to a manager that was there. *)
Lemma orders_of_fresh h c c' this a o :
  orders_of (State h c) this = Some a →
  orders_of (State (<[fresh (dom h) := o]> h) c') this = Some a.
Proof.
  intros Ho. pose proof (orders_of_allocated _ _ _ Ho) as Hal; simpl in Hal.
  unfold orders_of in *; simpl in *. rewrite lookup_insert_ne; [done|].
  intros Heq. apply (is_fresh (dom h)). rewrite Heq. by apply elem_of_dom.
Qed.

Lemma collection_fresh h c c' this o l :
  collection (State h c) this = Some l →
  collection (State (<[fresh (dom h) := o]> h) c') this = Some l.
Proof.
  rewrite !collection_Some. intros (a & oa & Ho & Ha & He). exists a, oa.
  split; [by eapply orders_of_fresh|]. split; [|done]. simpl in *.
  rewrite lookup_insert_ne; [done|].
  intros Heq. apply (is_fresh (dom h)). rewrite Heq. apply elem_of_dom; eauto.
Qed.

(** ** Arrays *)

Lemma array_push_spec σ a o l x :
  heap σ !! a = Some o → elems o = Some l →
  array_push (VRef a) x σ =
    Returns () (State (<[a := Obj (fields o) (Some (l ++ [x]))]> (heap σ)) (console σ)).
Proof. intros Ha He. unfold array_push. rewrite Ha. destruct o as [f e]; simpl in *. by subst e. Qed.

(** Pushing through the reference a manager holds extends its collection. *)
Lemma push_collection σ this l x :
  collection σ this = Some l →
  ∃ a σ', orders_of σ this = Some a ∧
          array_push (VRef a) x σ = Returns () σ' ∧
          collection σ' this = Some (l ++ [x]) ∧
          orders_of σ' this = Some a ∧
          console σ' = console σ.
Proof.
  intros (a & o & Ho & Ha & He)%collection_Some. exists a. eexists.
  split; [done|]. split; [by eapply array_push_spec|].
  destruct σ as [h c]; simpl in *.
  assert (orders_of (State (<[a := Obj (fields o) (Some (l ++ [x]))]> h) c) this = Some a)
    as Ho' by (by rewrite (orders_of_set_elems h c c this a o)).
  split; [|done]. apply collection_Some. eexists a, _. split; [done|].
  simpl. by rewrite lookup_insert_eq.
Qed.

(** A callback that neither throws nor writes acts as a Boolean test. *)
Lemma filter_elems_pure (p : value → M bool) (q : value → bool) es σ :
  (∀ x, x ∈ es → p x σ = Returns (q x) σ) →
  filter_elems p es σ = Returns (List.filter q es) σ.
Proof.
  induction es as [|x es IH]; intros Hp; [done|]. simpl.
  rewrite (bind_Returns _ _ _ _ _ (Hp x (list_elem_of_here _ _))).
  rewrite (bind_Returns _ _ _ (List.filter q es) σ).
  - unfold ret. by destruct (q x).
  - apply IH. intros y Hy. apply Hp. by apply list_elem_of_further.
Qed.

Lemma array_filter_pure σ a o l (p : value → M bool) (q : value → bool) :
  heap σ !! a = Some o → elems o = Some l →
  (∀ x, x ∈ l → p x σ = Returns (q x) σ) →
  array_filter (VRef a) p σ =
    Returns (VRef (fresh (dom (heap σ))))
            (State (<[fresh (dom (heap σ)) := array_of (List.filter q l)]> (heap σ)) (console σ)).
Proof.
  intros Ha He Hp. unfold array_filter. rewrite Ha.
  destruct o as [f e]; simpl in *; subst e.
  by rewrite (bind_Returns _ _ _ _ _ (filter_elems_pure p q l σ Hp)).
Qed.

Lemma filter_all (l : list value) : List.filter (λ _, true) l = l.
Proof. induction l as [|x l IH]; simpl; [done | by rewrite IH]. Qed.

Lemma filter_strict_neq_remove (v : value) (l : list value) :
  List.filter (λ x, strict_neq x v) l = remove value_eq_dec v l.
Proof.
  induction l as [|x l IH]; simpl; [done|]. unfold strict_neq at 1.
  destruct (value_eq_dec v x) as [->|Hne].
  - by rewrite bool_decide_eq_true_2.
  - rewrite bool_decide_eq_false_2 by congruence. simpl. by rewrite IH.
Qed.

(** ** OrderManager *)

Lemma new_OrderManager_spec σ :
  ∃ this σ', new_OrderManager σ = Returns this σ' ∧
             collection σ' this = Some [] ∧
             console σ' = console σ ∧
             heap σ !! this = None.
Proof.
  destruct σ as [h c]. unfold new_OrderManager, bind, alloc, set_field, ret; simpl.
  set (this := fresh (dom h)). set (h1 := <[this := empty_object]> h).
  set (a := fresh (dom h1)).
  assert (a ≠ this) as Hne.
  { intros Heq. apply (is_fresh (dom h1)). fold a. rewrite Heq. unfold h1.
    rewrite dom_insert_L. set_solver. }
  rewrite lookup_insert_ne by done. unfold h1 at 1. rewrite lookup_insert_eq.
  eexists _, _. split; [done|]. split; [|split; [done|]].
  - unfold collection, orders_of; simpl. rewrite lookup_insert_eq; simpl.
    rewrite lookup_insert_eq. rewrite lookup_insert_ne by done.
    by rewrite lookup_insert_eq.
  - simpl. apply not_elem_of_dom. apply is_fresh.
Qed.

Lemma placeOrder_spec σ this order id l :
  collection σ this = Some l →
  ∃ σ', placeOrder this order id σ =
          Returns ("You have successfully ordered " +:+ order +:+ " (" +:+ id +:+ ")") σ' ∧
        collection σ' this = Some (l ++ [VString id]) ∧
        console σ' = console σ.
Proof.
  intros (a & σ' & Ho & Hpush & Hc & _ & Hcon)%(push_collection _ _ _ (VString id)).
  exists σ'. split; [|done]. unfold placeOrder.
  rewrite (bind_Returns _ _ _ _ _ (get_orders _ _ _ Ho)).
  by rewrite (bind_Returns _ _ _ _ _ Hpush).
Qed.

Lemma cancelOrder_spec σ this id l :
  collection σ this = Some l →
  ∃ σ', cancelOrder this id σ = Returns ("You have canceled your order " +:+ id) σ' ∧
        collection σ' this = Some (List.filter (λ order, strict_neq order (VString id)) l) ∧
        console σ' = console σ.
Proof.
  intros (a & o & Ho & Ha & He)%collection_Some.
  destruct (orders_of_allocated _ _ _ Ho) as [ot Hthis].
  unfold cancelOrder. rewrite (bind_Returns _ _ _ _ _ (get_orders _ _ _ Ho)).
  erewrite bind_Returns; last first.
  { eapply (array_filter_pure _ _ _ _ _ (λ order, strict_neq order (VString id))); [done..|].
    by intros. }
  destruct σ as [h c]; simpl in *. set (a' := fresh (dom h)).
  assert (a' ≠ this) as Hne.
  { intros Heq. apply (is_fresh (dom h)). fold a'. rewrite Heq. apply elem_of_dom; eauto. }
  unfold bind, set_field, ret; simpl. rewrite lookup_insert_ne by done. rewrite Hthis.
  eexists. split; [done|]. split; [|done].
  unfold collection, orders_of; simpl. rewrite lookup_insert_eq; simpl.
  rewrite lookup_insert_eq. rewrite lookup_insert_ne by done.
  by rewrite lookup_insert_eq.
Qed.

(** ** OrderManager1 and the command factories *)

Lemma collection_heap σ1 σ2 this : heap σ1 = heap σ2 → collection σ1 this = collection σ2 this.
Proof. intros Hh. unfold collection, orders_of. by rewrite Hh. Qed.

Lemma new_OrderManager1_spec σ :
  ∃ this σ', new_OrderManager1 σ = Returns this σ' ∧
             collection σ' this = Some [] ∧
             console σ' = console σ ∧
             heap σ !! this = None.
Proof. apply new_OrderManager_spec. Qed.

Lemma execute_unfold σ this command args a :
  orders_of σ this = Some a →
  execute this command args σ = cmd_execute command (VRef a :: args) σ.
Proof. intros Ho. unfold execute. by rewrite (bind_Returns _ _ _ _ _ (get_orders _ _ _ Ho)). Qed.

Lemma execute_PlaceOrderCommand_spec σ this order id args l :
  collection σ this = Some l →
  ∃ σ', execute this (PlaceOrderCommand order id) args σ = Returns VUndefined σ' ∧
        collection σ' this = Some (l ++ [VString id]) ∧
        console σ' =
          console σ ++ ["You have successfully ordered " +:+ order +:+ " (" +:+ id +:+ ")"].
Proof.
  intros (a & σ' & Ho & Hpush & Hc & _ & Hcon)%(push_collection _ _ _ (VString id)).
  rewrite (execute_unfold _ _ _ _ _ Ho). simpl. unfold arg; simpl.
  rewrite (bind_Returns _ _ _ _ _ Hpush). unfold bind, console_log, ret.
  eexists. split; [done|]. simpl. split; [|by rewrite Hcon].
  rewrite <- Hc. by apply collection_heap.
Qed.

(** On a string element the test [order.id !== id] is true whatever [id]
    is: [order.id] is [undefined]. *)
Lemma cancel_test_string s id σ :
  (let! order_id := get_field (VString s) "id" in
   ret (strict_neq order_id (VString id))) σ = Returns true σ.
Proof. done. Qed.

Lemma execute_CancelOrderCommand_spec σ this id args l :
  collection σ this = Some l →
  forallb is_string l = true →
  ∃ σ', execute this (CancelOrderCommand id) args σ = Returns VUndefined σ' ∧
        heap σ' = <[fresh (dom (heap σ)) := array_of l]> (heap σ) ∧
        collection σ' this = Some l ∧
        orders_of σ' this = orders_of σ this ∧
        console σ' = console σ ++ ["You have canceled your order " +:+ id].
Proof.
  intros Hcol Hstr. pose proof Hcol as (a & o & Ho & Ha & He)%collection_Some.
  rewrite (execute_unfold _ _ _ _ _ Ho). simpl. unfold arg; simpl.
  erewrite bind_Returns; last first.
  { eapply (array_filter_pure _ _ _ _ _ (λ _, true)); [done..|].
    intros x Hx. rewrite forallb_forall in Hstr.
    apply list_elem_of_In, Hstr in Hx. destruct x; try done. }
  rewrite filter_all. unfold bind, console_log, ret; simpl.
  eexists. split; [done|]. simpl. destruct σ as [h c]; simpl in *.
  split; [done|]. split; [by eapply collection_fresh|]. split; [|done].
  rewrite Ho. by eapply orders_of_fresh.
Qed.

Lemma execute_TrackOrderCommand_spec σ this id args a :
  orders_of σ this = Some a →
  execute this (TrackOrderCommand id) args σ =
    Returns VUndefined
      (State (heap σ) (console σ ++ ["Your order " +:+ id +:+ " will arrive in 20 minutes."])).
Proof. intros Ho. by rewrite (execute_unfold _ _ _ _ _ Ho). Qed.

Lemma count_occ_remove_other (x y : value) (l : list value) :
  y ≠ x → count_occ value_eq_dec (remove value_eq_dec x l) y = count_occ value_eq_dec l y.
Proof.
  intros Hne. induction l as [|z l IH]; [done|]. simpl remove.
  destruct (value_eq_dec x z) as [<-|Hxz].
  - rewrite count_occ_cons_neq by congruence. done.
  - destruct (value_eq_dec z y) as [->|Hzy].
    + rewrite !count_occ_cons_eq by done. by rewrite IH.
    + rewrite !count_occ_cons_neq by done. done.
Qed.

Lemma sublist_List_filter (q : value → bool) (l : list value) : sublist (List.filter q l) l.
Proof.
  induction l as [|x l IH]; simpl; [constructor|].
  destruct (q x); by constructor.
Qed.

Lemma occurrences_snoc id l : occurrences id (l ++ [VString id]) = S (occurrences id l).
Proof.
  unfold occurrences. rewrite count_occ_app.
  rewrite (count_occ_cons_eq value_eq_dec [] (eq_refl (VString id))).
  rewrite count_occ_nil. lia.
Qed.

(** * Specified behaviour of the two managers *)

(** C1. Executing [CancelOrderCommand(id)] on a dispatching manager whose
    collection holds only strings is a no-op on that collection: the
    command returns [undefined], the manager still refers to the same array
    with the same elements, and the only heap change is the array made by
    [filter], which holds every element because [order.id !== id] is true
    on each string.  One line is logged. *)
Theorem execute_CancelOrderCommand_noop σ this id args l :
  collection σ this = Some l →
  forallb is_string l = true →
  ∃ σ', execute this (CancelOrderCommand id) args σ = Returns VUndefined σ' ∧
        collection σ' this = Some l ∧
        orders_of σ' this = orders_of σ this ∧
        heap σ' = <[fresh (dom (heap σ)) := array_of l]> (heap σ) ∧
        console σ' = console σ ++ ["You have canceled your order " +:+ id].
Proof.
  intros Hcol Hstr.
  destruct (execute_CancelOrderCommand_spec σ this id args l Hcol Hstr)
    as (σ' & Hex & Hheap & Hc & Ho & Hlog).
  by exists σ'.
Qed.

Lemma execute_CancelOrderCommand_noop_witness :
  collection sample 1%positive = Some sample_orders ∧
  forallb is_string sample_orders = true ∧
  ∃ σ', execute 1%positive (CancelOrderCommand "311") [] sample = Returns VUndefined σ' ∧
        collection σ' 1%positive = Some sample_orders ∧
        orders_of σ' 1%positive = orders_of sample 1%positive ∧
        heap σ' = <[fresh (dom (heap sample)) := array_of sample_orders]> (heap sample) ∧
        console σ' = console sample ++ ["You have canceled your order " +:+ "311"].
Proof.
  split; [reflexivity|]. split; [reflexivity|].
  apply (execute_CancelOrderCommand_noop sample 1%positive "311" [] sample_orders);
    reflexivity.
Defined.

(** C2. [execute(command, ...args)] on a dispatching manager has the outcome
    (value returned or exception thrown, and resulting state) of calling the
    behaviour wrapped in [command] with the manager's array followed by
    [args]. *)
Theorem execute_calls_behavior σ this command args a :
  orders_of σ this = Some a →
  execute this command args σ = cmd_execute command (VRef a :: args) σ.
Proof. apply execute_unfold. Qed.

Lemma execute_calls_behavior_witness :
  orders_of sample 1%positive = Some 2%positive ∧
  execute 1%positive (PlaceOrderCommand "Pad Thai" "1234") [VNull] sample =
    cmd_execute (PlaceOrderCommand "Pad Thai" "1234") [VRef 2%positive; VNull] sample.
Proof.
  split; [reflexivity|].
  apply (execute_calls_behavior sample 1%positive (PlaceOrderCommand "Pad Thai" "1234")
           [VNull] 2%positive).
  reflexivity.
Defined.

(** C3. [cancelOrder(id)] returns the confirmation string and leaves a
    collection in which [id] does not occur while every other value occurs
    as often as before; when [id] was absent the collection has the elements
    it had. *)
Theorem cancelOrder_removes_all σ this id l :
  collection σ this = Some l →
  ∃ σ' l', cancelOrder this id σ = Returns ("You have canceled your order " +:+ id) σ' ∧
           collection σ' this = Some l' ∧
           (VString id ∉ l') ∧
           (∀ v, v ≠ VString id → count_occ value_eq_dec l' v = count_occ value_eq_dec l v) ∧
           (VString id ∉ l → l' = l).
Proof.
  intros Hcol. destruct (cancelOrder_spec σ this id l Hcol) as (σ' & Hrun & Hc & _).
  rewrite filter_strict_neq_remove in Hc.
  exists σ', (remove value_eq_dec (VString id) l).
  split; [done|]. split; [done|]. split; [|split].
  - rewrite list_elem_of_In. apply remove_In.
  - intros v Hv. by apply count_occ_remove_other.
  - intros Habs. apply notin_remove. by rewrite <- list_elem_of_In.
Qed.

Lemma cancelOrder_removes_all_witness :
  collection sample 1%positive = Some sample_orders ∧
  ∃ σ' l', cancelOrder 1%positive "311" sample =
             Returns ("You have canceled your order " +:+ "311") σ' ∧
           collection σ' 1%positive = Some l' ∧
           (VString "311" ∉ l') ∧
           (∀ v, v ≠ VString "311" →
                 count_occ value_eq_dec l' v = count_occ value_eq_dec sample_orders v) ∧
           (VString "311" ∉ sample_orders → l' = sample_orders).
Proof.
  split; [reflexivity|].
  apply (cancelOrder_removes_all sample 1%positive "311" sample_orders). reflexivity.
Defined.

(** C4. [placeOrder(order, id)] puts [id] after the identifiers already
    stored, which stay where they were, and returns a string in which both
    [order] and [id] occur. *)
Theorem placeOrder_appends σ this order id l :
  collection σ this = Some l →
  ∃ s σ' l', placeOrder this order id σ = Returns s σ' ∧
             collection σ' this = Some l' ∧
             l' = l ++ [VString id] ∧
             contains order s ∧
             contains id s.
Proof.
  intros Hcol. destruct (placeOrder_spec σ this order id l Hcol) as (σ' & Hrun & Hc & _).
  eexists _, σ', _. split; [done|]. split; [done|]. split; [done|]. split.
  - apply contains_intro.
  - exists ("You have successfully ordered " +:+ order +:+ " ("), ")".
    by rewrite !string_app_assoc.
Qed.

Lemma placeOrder_appends_witness :
  collection sample 1%positive = Some sample_orders ∧
  ∃ s σ' l', placeOrder 1%positive "yuca" "311" sample = Returns s σ' ∧
             collection σ' 1%positive = Some l' ∧
             l' = sample_orders ++ [VString "311"] ∧
             contains "yuca" s ∧
             contains "311" s.
Proof.
  split; [reflexivity|].
  apply (placeOrder_appends sample 1%positive "yuca" "311" sample_orders). reflexivity.
Defined.

(** C5. [trackOrder(id)] returns the same string from any two states and
    for any two managers; [id] and the text 20 minutes occur in it; the
    state, and with it every collection, is the one the call started in. *)
Theorem trackOrder_fixed id this1 this2 σ1 σ2 :
  ∃ s, trackOrder this1 id σ1 = Returns s σ1 ∧
       trackOrder this2 id σ2 = Returns s σ2 ∧
       contains id s ∧
       contains "20 minutes" s.
Proof.
  exists ("Your order " +:+ id +:+ " will arrive in 20 minutes.").
  split; [done|]. split; [done|]. split.
  - apply contains_intro.
  - exists ("Your order " +:+ id +:+ " will arrive in "), ".".
    by rewrite !string_app_assoc.
Qed.

(** C6. No operation of either manager throws: on a direct manager with any
    collection, [placeOrder], [trackOrder] and [cancelOrder] return for all
    strings; on a dispatching manager whose collection holds strings,
    [execute] returns for each of the three factory commands, whatever the
    identifier and whether or not it is stored. *)
Theorem operations_total σ m m1 order id args l l1 :
  collection σ m = Some l →
  collection σ m1 = Some l1 →
  forallb is_string l1 = true →
  returns (placeOrder m order id) σ ∧
  returns (trackOrder m id) σ ∧
  returns (cancelOrder m id) σ ∧
  returns (execute m1 (PlaceOrderCommand order id) args) σ ∧
  returns (execute m1 (TrackOrderCommand id) args) σ ∧
  returns (execute m1 (CancelOrderCommand id) args) σ.
Proof.
  intros Hm Hm1 Hstr. unfold returns. repeat split.
  - destruct (placeOrder_spec σ m order id l Hm) as (σ' & Hrun & _). eauto.
  - eexists _, _. reflexivity.
  - destruct (cancelOrder_spec σ m id l Hm) as (σ' & Hrun & _). eauto.
  - destruct (execute_PlaceOrderCommand_spec σ m1 order id args l1 Hm1) as (σ' & Hrun & _).
    eauto.
  - apply collection_Some in Hm1 as (a & o & Ho & _).
    rewrite (execute_TrackOrderCommand_spec σ m1 id args a Ho). eauto.
  - destruct (execute_CancelOrderCommand_spec σ m1 id args l1 Hm1 Hstr) as (σ' & Hrun & _).
    eauto.
Qed.

Lemma operations_total_witness :
  collection sample 1%positive = Some sample_orders ∧
  forallb is_string sample_orders = true ∧
  returns (placeOrder 1%positive "yuca" "7") sample ∧
  returns (trackOrder 1%positive "7") sample ∧
  returns (cancelOrder 1%positive "7") sample ∧
  returns (execute 1%positive (PlaceOrderCommand "yuca" "7") []) sample ∧
  returns (execute 1%positive (TrackOrderCommand "7") []) sample ∧
  returns (execute 1%positive (CancelOrderCommand "7") []) sample.
Proof.
  split; [reflexivity|]. split; [reflexivity|].
  apply (operations_total sample 1%positive 1%positive "yuca" "7" []
           sample_orders sample_orders); reflexivity.
Defined.

(** C7. On a manager just constructed, in any state, [placeOrder("yuca",
    "311")] followed by [cancelOrder("311")] returns and leaves a collection
    in which 311 does not occur. *)
Theorem place_then_cancel σ0 :
  ∃ manager σ1 s1 σ2 s2 σ3 l,
    new_OrderManager σ0 = Returns manager σ1 ∧
    placeOrder manager "yuca" "311" σ1 = Returns s1 σ2 ∧
    cancelOrder manager "311" σ2 = Returns s2 σ3 ∧
    collection σ3 manager = Some l ∧
    VString "311" ∉ l.
Proof.
  destruct (new_OrderManager_spec σ0) as (manager & σ1 & Hnew & Hc1 & _).
  destruct (placeOrder_spec σ1 manager "yuca" "311" [] Hc1) as (σ2 & Hplace & Hc2 & _).
  destruct (cancelOrder_spec σ2 manager "311" _ Hc2) as (σ3 & Hcancel & Hc3 & _).
  exists manager, σ1. eexists _, σ2, _, σ3, _.
  split; [done|]. split; [done|]. split; [done|]. split; [exact Hc3|].
  vm_compute. apply not_elem_of_nil.
Qed.

(** C8. On a dispatching manager just constructed, in any state, executing
    [PlaceOrderCommand("Pad Thai", "1234")] leaves 1234 in the collection;
    executing [TrackOrderCommand("1234")] next logs the arrival line and
    leaves the heap, hence the collection, as it was. *)
Theorem place_then_track_commands σ0 :
  ∃ manager2 σ1 σ2 σ3 l2,
    new_OrderManager1 σ0 = Returns manager2 σ1 ∧
    execute manager2 (PlaceOrderCommand "Pad Thai" "1234") [] σ1 = Returns VUndefined σ2 ∧
    collection σ2 manager2 = Some l2 ∧
    VString "1234" ∈ l2 ∧
    execute manager2 (TrackOrderCommand "1234") [] σ2 = Returns VUndefined σ3 ∧
    console σ3 = console σ2 ++ ["Your order 1234 will arrive in 20 minutes."] ∧
    heap σ3 = heap σ2 ∧
    collection σ3 manager2 = collection σ2 manager2.
Proof.
  destruct (new_OrderManager1_spec σ0) as (manager2 & σ1 & Hnew & Hc1 & _).
  destruct (execute_PlaceOrderCommand_spec σ1 manager2 "Pad Thai" "1234" [] [] Hc1)
    as (σ2 & Hplace & Hc2 & _).
  pose proof Hc2 as (a & o & Ho & _)%collection_Some.
  exists manager2, σ1, σ2. eexists _, _.
  split; [done|]. split; [done|]. split; [done|]. split; [apply list_elem_of_here|].
  split; [by apply execute_TrackOrderCommand_spec with (a := a)|].
  split; [done|]. split; [done|]. by apply collection_heap.
Qed.

(** C9. Identifiers need not be unique: when [id] is already stored,
    [placeOrder(order, id)] returns all the same and [id] occurs once more
    than before, hence at least twice. *)
Theorem placeOrder_duplicates σ this order id l :
  collection σ this = Some l →
  VString id ∈ l →
  ∃ s σ' l', placeOrder this order id σ = Returns s σ' ∧
             collection σ' this = Some l' ∧
             occurrences id l' = S (occurrences id l) ∧
             2 ≤ occurrences id l'.
Proof.
  intros Hcol Hin. destruct (placeOrder_spec σ this order id l Hcol) as (σ' & Hrun & Hc & _).
  eexists _, σ', _. split; [done|]. split; [done|].
  rewrite occurrences_snoc. split; [done|].
  apply list_elem_of_In, (count_occ_In value_eq_dec) in Hin. unfold occurrences. lia.
Qed.

Lemma placeOrder_duplicates_witness :
  collection sample 1%positive = Some sample_orders ∧
  VString "42" ∈ sample_orders ∧
  ∃ s σ' l', placeOrder 1%positive "yuca" "42" sample = Returns s σ' ∧
             collection σ' 1%positive = Some l' ∧
             occurrences "42" l' = S (occurrences "42" sample_orders) ∧
             2 ≤ occurrences "42" l'.
Proof.
  assert (VString "42" ∈ sample_orders) as Hin
    by (apply list_elem_of_further, list_elem_of_here).
  split; [reflexivity|]. split; [exact Hin|].
  apply (placeOrder_duplicates sample 1%positive "yuca" "42" sample_orders);
    [reflexivity | exact Hin].
Defined.

(** C10. [cancelOrder(id)] keeps the identifiers it does not remove in the
    order they had: the new collection is the old one with the occurrences
    of [id] deleted, a subsequence of the old one. *)
Theorem cancelOrder_keeps_order σ this id l :
  collection σ this = Some l →
  ∃ s σ' l', cancelOrder this id σ = Returns s σ' ∧
             collection σ' this = Some l' ∧
             l' = remove value_eq_dec (VString id) l ∧
             sublist l' l.
Proof.
  intros Hcol. destruct (cancelOrder_spec σ this id l Hcol) as (σ' & Hrun & Hc & _).
  eexists _, σ', _. split; [done|]. split; [done|].
  split; [apply filter_strict_neq_remove | apply sublist_List_filter].
Qed.

Lemma cancelOrder_keeps_order_witness :
  collection sample 1%positive = Some sample_orders ∧
  ∃ s σ' l', cancelOrder 1%positive "42" sample = Returns s σ' ∧
             collection σ' 1%positive = Some l' ∧
             l' = remove value_eq_dec (VString "42") sample_orders ∧
             sublist l' sample_orders.
Proof.
  split; [reflexivity|].
  apply (cancelOrder_keeps_order sample 1%positive "42" sample_orders). reflexivity.
Defined.

(** ** The script itself, and collections that hold more than strings *)

(** Lines 25 to 29 end with an empty collection. *)
Example main_direct_final :
  ∃ manager σ, main_direct initial = Returns manager σ ∧ collection σ manager = Some [].
Proof. eexists _, _. split; vm_compute; reflexivity. Qed.

(** Lines 79 to 83: the last line, [CancelOrderCommand("1234")], leaves 1234
    in the collection, and three lines are logged. *)
Example main_dispatch_final :
  ∃ manager2 σ, main_dispatch initial = Returns manager2 σ ∧
                collection σ manager2 = Some [VString "1234"] ∧
                console σ = ["You have successfully ordered Pad Thai (1234)";
                             "Your order 1234 will arrive in 20 minutes.";
                             "You have canceled your order 1234"].
Proof. eexists _, _. split; [|split]; vm_compute; reflexivity. Qed.

(** An element that is an object with a matching [id] is rejected by the
    test, yet the manager keeps it: the filtered array (empty here, at the
    new location 4) is bound to the parameter only. *)
Example cancel_command_on_object :
  ∃ σ', execute 1%positive (CancelOrderCommand "1234") [] sample_objects =
          Returns VUndefined σ' ∧
        collection σ' 1%positive = Some [VRef 3%positive] ∧
        heap σ' !! 4%positive = Some (array_of []).
Proof. eexists. split; [|split]; vm_compute; reflexivity. Qed.

(** An [undefined] element, which no call with string arguments stores,
    makes the test of [CancelOrderCommand] throw; [cancelOrder] compares the
    element itself and returns. *)
Example cancel_command_on_hole :
  execute 1%positive (CancelOrderCommand "311") [] sample_hole = Throws TypeError sample_hole.
Proof. vm_compute. reflexivity. Qed.

Example cancelOrder_on_hole :
  ∃ σ', cancelOrder 1%positive "311" sample_hole =
          Returns "You have canceled your order 311" σ' ∧
        collection σ' 1%positive = Some [VUndefined].
Proof. eexists. split; vm_compute; reflexivity. Qed.

(** * Further behaviour read off the source *)

(** ** Exact resulting states *)

Lemma placeOrder_exact σ this order id a o l :
  orders_of σ this = Some a → heap σ !! a = Some o → elems o = Some l →
  placeOrder this order id σ =
    Returns ("You have successfully ordered " +:+ order +:+ " (" +:+ id +:+ ")")
            (State (<[a := Obj (fields o) (Some (l ++ [VString id]))]> (heap σ)) (console σ)).
Proof.
  intros Ho Ha He. unfold placeOrder.
  rewrite (bind_Returns _ _ _ _ _ (get_orders _ _ _ Ho)).
  by rewrite (bind_Returns _ _ _ _ _ (array_push_spec _ _ _ _ (VString id) Ha He)).
Qed.

Lemma execute_PlaceOrderCommand_exact σ this order id args a o l :
  orders_of σ this = Some a → heap σ !! a = Some o → elems o = Some l →
  execute this (PlaceOrderCommand order id) args σ =
    Returns VUndefined
      (State (<[a := Obj (fields o) (Some (l ++ [VString id]))]> (heap σ))
             (console σ ++ ["You have successfully ordered " +:+ order +:+ " (" +:+ id +:+ ")"])).
Proof.
  intros Ho Ha He. rewrite (execute_unfold _ _ _ _ _ Ho). simpl. unfold arg; simpl.
  by rewrite (bind_Returns _ _ _ _ _ (array_push_spec _ _ _ _ (VString id) Ha He)).
Qed.

Lemma cancelOrder_exact σ this id a o l ot :
  orders_of σ this = Some a → heap σ !! a = Some o → elems o = Some l →
  heap σ !! this = Some ot →
  cancelOrder this id σ =
    Returns ("You have canceled your order " +:+ id)
      (State (<[this := Obj (<["orders" := VRef (fresh (dom (heap σ)))]> (fields ot)) (elems ot)]>
                (<[fresh (dom (heap σ)) :=
                     array_of (List.filter (λ order, strict_neq order (VString id)) l)]>
                   (heap σ)))
             (console σ)).
Proof.
  intros Ho Ha He Hthis. unfold cancelOrder.
  rewrite (bind_Returns _ _ _ _ _ (get_orders _ _ _ Ho)).
  erewrite bind_Returns; last first.
  { eapply (array_filter_pure _ _ _ _ _ (λ order, strict_neq order (VString id))); [done..|].
    by intros. }
  unfold bind, set_field, ret; simpl.
  rewrite lookup_insert_ne; [by rewrite Hthis|].
  intros Heq. apply (is_fresh (dom (heap σ))). rewrite Heq. apply elem_of_dom; eauto.
Qed.

Lemma fresh_not_allocated (h : gmap loc obj) b : is_Some (h !! b) → fresh (dom h) ≠ b.
Proof. intros Hb Heq. apply (is_fresh (dom h)). rewrite Heq. by apply elem_of_dom. Qed.

Lemma fresh_lookup (h : gmap loc obj) : h !! fresh (dom h) = None.
Proof. apply not_elem_of_dom, is_fresh. Qed.

(** ** Framing a manager's collection *)

(** A manager sees the same collection in any state that agrees on its
    [orders] field and on the elements of the array it refers to. *)
Lemma collection_preserved σ σ' m l :
  collection σ m = Some l →
  orders_of σ' m = orders_of σ m →
  (∀ a, orders_of σ m = Some a → ∃ o', heap σ' !! a = Some o' ∧ elems o' = Some l) →
  collection σ' m = Some l.
Proof.
  intros (a & o & Ho & Ha & He)%collection_Some Hsame Harr.
  destruct (Harr a Ho) as (o' & Ha' & He'). apply collection_Some.
  exists a, o'. by rewrite Hsame.
Qed.

(** A heap that only grew shows every manager the collection it had. *)
Lemma collection_weaken σ σ' m l :
  heap σ ⊆ heap σ' → collection σ m = Some l → collection σ' m = Some l.
Proof.
  intros Hsub (a & o & Ho & Ha & He)%collection_Some.
  apply collection_Some. exists a, o. split; [|split; [|done]].
  - unfold orders_of in *. destruct (heap σ !! m) as [om|] eqn:Hm; [|done].
    by rewrite (lookup_weaken _ _ _ _ Hm Hsub).
  - by eapply lookup_weaken.
Qed.

Lemma orders_of_insert_ne h c c' m b o :
  m ≠ b → orders_of (State (<[b := o]> h) c') m = orders_of (State h c) m.
Proof. intros Hne. unfold orders_of; simpl. by rewrite lookup_insert_ne. Qed.

(** ** List facts about removal *)

Lemma remove_snoc_same (x : value) (l : list value) :
  remove value_eq_dec x (l ++ [x]) = remove value_eq_dec x l.
Proof.
  rewrite remove_app. simpl. destruct (value_eq_dec x x); [|done]. by rewrite app_nil_r.
Qed.

Lemma remove_idem (x : value) (l : list value) :
  remove value_eq_dec x (remove value_eq_dec x l) = remove value_eq_dec x l.
Proof. apply notin_remove, remove_In. Qed.

Lemma remove_length_count (x : value) (l : list value) :
  length (remove value_eq_dec x l) + count_occ value_eq_dec l x = length l.
Proof.
  induction l as [|y l IH]; [done|]. simpl remove.
  destruct (value_eq_dec x y) as [<-|Hne].
  - rewrite count_occ_cons_eq by done. simpl. lia.
  - rewrite count_occ_cons_neq by congruence. simpl. lia.
Qed.

Lemma remove_fixed_iff (x : value) (l : list value) :
  remove value_eq_dec x l = l ↔ x ∉ l.
Proof.
  split.
  - intros Heq Hin. apply (remove_In value_eq_dec l x). rewrite Heq.
    by apply list_elem_of_In.
  - intros Hnin. apply notin_remove. by rewrite <- list_elem_of_In.
Qed.

(** ** The two designs side by side *)

(** X1. Placing and tracking through commands does to the heap what the
    methods of [OrderManager] do, and logs the very string the method
    returns; the methods log nothing. *)
Theorem place_track_commands_match_methods σ this order id args l :
  collection σ this = Some l →
  ∃ s σ1 σ2 t,
    placeOrder this order id σ = Returns s σ1 ∧
    execute this (PlaceOrderCommand order id) args σ = Returns VUndefined σ2 ∧
    heap σ2 = heap σ1 ∧
    console σ1 = console σ ∧
    console σ2 = console σ ++ [s] ∧
    trackOrder this id σ = Returns t σ ∧
    execute this (TrackOrderCommand id) args σ =
      Returns VUndefined (State (heap σ) (console σ ++ [t])).
Proof.
  intros (a & o & Ho & Ha & He)%collection_Some.
  eexists _, _, _, _.
  split; [by eapply placeOrder_exact|].
  split; [by eapply execute_PlaceOrderCommand_exact|].
  split; [done|]. split; [done|]. split; [done|]. split; [done|].
  by eapply execute_TrackOrderCommand_spec.
Qed.

Lemma place_track_commands_match_methods_witness :
  collection sample 1%positive = Some sample_orders ∧
  ∃ s σ1 σ2 t,
    placeOrder 1%positive "yuca" "7" sample = Returns s σ1 ∧
    execute 1%positive (PlaceOrderCommand "yuca" "7") [] sample = Returns VUndefined σ2 ∧
    heap σ2 = heap σ1 ∧
    console σ1 = console sample ∧
    console σ2 = console sample ++ [s] ∧
    trackOrder 1%positive "7" sample = Returns t sample ∧
    execute 1%positive (TrackOrderCommand "7") [] sample =
      Returns VUndefined (State (heap sample) (console sample ++ [t])).
Proof.
  split; [reflexivity|].
  apply (place_track_commands_match_methods sample 1%positive "yuca" "7" [] sample_orders).
  reflexivity.
Defined.

(** X2. Cancelling is where the designs part: on a collection of strings,
    [cancelOrder(id)] and the executed [CancelOrderCommand(id)] leave the
    same collection exactly when [id] was not stored.  The command logs the
    string the method returns either way. *)
Theorem cancel_command_differs_from_method σ this id args l :
  collection σ this = Some l →
  forallb is_string l = true →
  ∃ s σ1 σ2 l1 l2,
    cancelOrder this id σ = Returns s σ1 ∧
    execute this (CancelOrderCommand id) args σ = Returns VUndefined σ2 ∧
    collection σ1 this = Some l1 ∧
    collection σ2 this = Some l2 ∧
    (l1 = l2 ↔ VString id ∉ l) ∧
    console σ1 = console σ ∧
    console σ2 = console σ ++ [s].
Proof.
  intros Hcol Hstr.
  destruct (cancelOrder_spec σ this id l Hcol) as (σ1 & Hrun1 & Hc1 & Hlog1).
  destruct (execute_CancelOrderCommand_spec σ this id args l Hcol Hstr)
    as (σ2 & Hrun2 & _ & Hc2 & _ & Hlog2).
  rewrite filter_strict_neq_remove in Hc1.
  eexists _, σ1, σ2, _, _. split; [done|]. split; [done|]. split; [done|].
  split; [done|]. split; [apply remove_fixed_iff | done].
Qed.

Lemma cancel_command_differs_from_method_witness :
  collection sample 1%positive = Some sample_orders ∧
  forallb is_string sample_orders = true ∧
  ∃ s σ1 σ2 l1 l2,
    cancelOrder 1%positive "42" sample = Returns s σ1 ∧
    execute 1%positive (CancelOrderCommand "42") [] sample = Returns VUndefined σ2 ∧
    collection σ1 1%positive = Some l1 ∧
    collection σ2 1%positive = Some l2 ∧
    (l1 = l2 ↔ VString "42" ∉ sample_orders) ∧
    console σ1 = console sample ∧
    console σ2 = console sample ++ [s].
Proof.
  split; [reflexivity|]. split; [reflexivity|].
  apply (cancel_command_differs_from_method sample 1%positive "42" [] sample_orders);
    reflexivity.
Defined.

(** ** Construction *)

Lemma new_OrderManager_exact σ :
  let this := fresh (dom (heap σ)) in
  let a := fresh (dom (<[this := empty_object]> (heap σ))) in
  new_OrderManager σ =
    Returns this
      (State (<[this := Obj {[ "orders" := VRef a ]} None]>
                (<[a := array_of []]> (<[this := empty_object]> (heap σ))))
             (console σ)).
Proof.
  intros this a. unfold new_OrderManager, bind, alloc, set_field, ret; simpl.
  fold this. fold a.
  assert (a ≠ this) as Hne.
  { apply fresh_not_allocated. rewrite lookup_insert_eq. eauto. }
  rewrite lookup_insert_ne by done. rewrite lookup_insert_eq. simpl.
  by rewrite insert_empty.
Qed.

Lemma new_OrderManager_grows σ :
  ∃ this a σ',
    new_OrderManager σ = Returns this σ' ∧
    heap σ !! this = None ∧
    heap σ !! a = None ∧
    this ≠ a ∧
    orders_of σ' this = Some a ∧
    collection σ' this = Some [] ∧
    console σ' = console σ ∧
    heap σ ⊆ heap σ'.
Proof.
  pose proof (new_OrderManager_exact σ) as Hnew. simpl in Hnew.
  set (this := fresh (dom (heap σ))) in *.
  set (a := fresh (dom (<[this := empty_object]> (heap σ)))) in *.
  assert (heap σ !! this = None) as Hthis by apply fresh_lookup.
  assert (<[this := empty_object]> (heap σ) !! a = None) as Ha by apply fresh_lookup.
  assert (a ≠ this) as Hne.
  { intros Heq. rewrite Heq, lookup_insert_eq in Ha. done. }
  rewrite lookup_insert_ne in Ha by done.
  eexists this, a, _. split; [exact Hnew|].
  split; [done|]. split; [done|]. split; [done|]. split; [|split; [|split; [done|]]].
  - unfold orders_of; simpl. rewrite lookup_insert_eq. simpl.
    by rewrite lookup_singleton_eq.
  - unfold collection, orders_of; simpl. rewrite lookup_insert_eq. simpl.
    rewrite lookup_singleton_eq. rewrite lookup_insert_ne by done.
    by rewrite lookup_insert_eq.
  - simpl. rewrite insert_insert_ne by done. rewrite insert_insert_eq.
    etrans; [|apply insert_subseteq; by rewrite lookup_insert_ne].
    by apply insert_subseteq.
Qed.

(** X3. A constructor never reuses anything: the manager and its array are
    two locations the heap did not use, the collection starts empty,
    nothing is logged, and every manager that was there keeps the
    collection it had.  Both classes have this constructor. *)
Theorem constructor_fresh_and_framed σ :
  ∃ this a σ',
    new_OrderManager σ = Returns this σ' ∧
    new_OrderManager1 σ = Returns this σ' ∧
    heap σ !! this = None ∧
    heap σ !! a = None ∧
    this ≠ a ∧
    orders_of σ' this = Some a ∧
    collection σ' this = Some [] ∧
    console σ' = console σ ∧
    ∀ m l, collection σ m = Some l → collection σ' m = Some l.
Proof.
  destruct (new_OrderManager_grows σ)
    as (this & a & σ' & Hnew & Hthis & Ha & Hne & Ho & Hc & Hlog & Hsub).
  exists this, a, σ'. split; [done|]. split; [exact Hnew|]. split; [done|].
  split; [done|]. split; [done|]. split; [done|]. split; [done|]. split; [done|].
  intros m l. by apply collection_weaken.
Qed.

(** ** Sharing and isolation *)

Lemma placeOrder_other_manager h c this a o l x m' l' :
  orders_of (State h c) this = Some a → h !! a = Some o → elems o = Some l →
  collection (State h c) m' = Some l' →
  collection (State (<[a := Obj (fields o) (Some (l ++ [x]))]> h) c) m' =
    Some (if decide (orders_of (State h c) m' = orders_of (State h c) this)
          then l' ++ [x] else l').
Proof.
  intros Ho Ha He (b & ob & Hob & Hb & Heb)%collection_Some. simpl in *.
  apply collection_Some. rewrite (orders_of_set_elems h c c m' a o) by done.
  rewrite Hob, Ho. destruct (decide (Some b = Some a)) as [[= ->]|Hne].
  - eexists a, _. split; [done|]. simpl. rewrite lookup_insert_eq. split; [done|].
    simpl. congruence.
  - exists b, ob. split; [done|]. simpl. rewrite lookup_insert_ne by congruence. done.
Qed.

(** X4. [cancelOrder] on one manager changes the collection of no other
    manager, not even of one whose [orders] is the same array: the method
    assigns a new array to its own field and leaves the old one alone. *)
Theorem cancelOrder_leaves_other_managers σ m m' id l l' :
  collection σ m = Some l →
  collection σ m' = Some l' →
  m ≠ m' →
  ∃ s σ', cancelOrder m id σ = Returns s σ' ∧ collection σ' m' = Some l'.
Proof.
  intros (a & o & Ho & Ha & He)%collection_Some Hcol' Hne.
  destruct (orders_of_allocated _ _ _ Ho) as [ot Hm].
  eexists _, _. split; [by eapply cancelOrder_exact|].
  pose proof Hcol' as (b & ob & Hob & Hb & Heb)%collection_Some.
  destruct (orders_of_allocated _ _ _ Hob) as [ot' Hm'].
  destruct σ as [h c]; simpl in *.
  assert (fresh (dom h) ≠ m') as Hf' by (apply fresh_not_allocated; eauto).
  assert (fresh (dom h) ≠ b) as Hfb by (apply fresh_not_allocated; eauto).
  apply (collection_preserved (State h c)); [done|..].
  - rewrite (orders_of_insert_ne _ c c) by done.
    by rewrite (orders_of_insert_ne _ c c).
  - intros b' Hb'. rewrite Hob in Hb'. injection Hb' as <-. simpl.
    destruct (decide (m = b)) as [->|Hmb].
    + rewrite lookup_insert_eq. eexists. split; [done|]. simpl. congruence.
    + rewrite lookup_insert_ne by done. rewrite lookup_insert_ne by done. eauto.
Qed.

Lemma cancelOrder_leaves_other_managers_witness :
  collection sample_shared 1%positive = Some sample_orders ∧
  collection sample_shared 3%positive = Some sample_orders ∧
  1%positive ≠ 3%positive ∧
  ∃ s σ', cancelOrder 1%positive "311" sample_shared = Returns s σ' ∧
          collection σ' 3%positive = Some sample_orders.
Proof.
  assert (1%positive ≠ 3%positive) as Hne by discriminate.
  split; [reflexivity|]. split; [reflexivity|]. split; [exact Hne|].
  apply (cancelOrder_leaves_other_managers sample_shared 1%positive 3%positive "311"
           sample_orders sample_orders); [reflexivity | reflexivity | exact Hne].
Defined.

(** X5. [placeOrder] and the executed [PlaceOrderCommand] push onto the
    array in place: another manager sees the new identifier at the end of
    its collection when its [orders] is that same array, and sees no change
    otherwise. *)
Theorem place_seen_by_sharers_only σ m m' order id args l l' :
  collection σ m = Some l →
  collection σ m' = Some l' →
  ∃ s σ1 σ2,
    placeOrder m order id σ = Returns s σ1 ∧
    execute m (PlaceOrderCommand order id) args σ = Returns VUndefined σ2 ∧
    collection σ1 m' = collection σ2 m' ∧
    collection σ1 m' =
      Some (if decide (orders_of σ m' = orders_of σ m) then l' ++ [VString id] else l').
Proof.
  intros (a & o & Ho & Ha & He)%collection_Some Hcol'.
  eexists _, _, _. split; [by eapply placeOrder_exact|].
  split; [by eapply execute_PlaceOrderCommand_exact|].
  split; [by apply collection_heap|].
  destruct σ as [h c]. by eapply placeOrder_other_manager.
Qed.

Lemma place_seen_by_sharers_only_witness :
  collection sample_shared 1%positive = Some sample_orders ∧
  collection sample_shared 3%positive = Some sample_orders ∧
  ∃ s σ1 σ2,
    placeOrder 1%positive "yuca" "7" sample_shared = Returns s σ1 ∧
    execute 1%positive (PlaceOrderCommand "yuca" "7") [] sample_shared =
      Returns VUndefined σ2 ∧
    collection σ1 3%positive = collection σ2 3%positive ∧
    collection σ1 3%positive =
      Some (if decide (orders_of sample_shared 3%positive = orders_of sample_shared 1%positive)
            then sample_orders ++ [VString "7"] else sample_orders).
Proof.
  split; [reflexivity|]. split; [reflexivity|].
  apply (place_seen_by_sharers_only sample_shared 1%positive 3%positive "yuca" "7" []
           sample_orders sample_orders); reflexivity.
Defined.

(** X6. [placeOrder] keeps the array the manager refers to; [cancelOrder]
    makes the manager refer to an array that did not exist before, and the
    array it referred to keeps all its elements, the cancelled identifier
    included. *)
Theorem place_keeps_array_cancel_swaps_it σ this order id l :
  collection σ this = Some l →
  ∃ a a' s1 σ1 s2 σ2 o',
    orders_of σ this = Some a ∧
    placeOrder this order id σ = Returns s1 σ1 ∧
    orders_of σ1 this = Some a ∧
    cancelOrder this id σ = Returns s2 σ2 ∧
    orders_of σ2 this = Some a' ∧
    heap σ !! a' = None ∧
    heap σ2 !! a = Some o' ∧
    elems o' = Some l.
Proof.
  intros (a & o & Ho & Ha & He)%collection_Some.
  destruct (orders_of_allocated _ _ _ Ho) as [ot Hm].
  destruct σ as [h c]; simpl in *.
  assert (fresh (dom h) ≠ this) as Hft by (apply fresh_not_allocated; eauto).
  assert (fresh (dom h) ≠ a) as Hfa by (apply fresh_not_allocated; eauto).
  assert (∃ o', <[this := Obj (<["orders" := VRef (fresh (dom h))]> (fields ot)) (elems ot)]>
                   (<[fresh (dom h) :=
                        array_of (List.filter (λ order, strict_neq order (VString id)) l)]> h)
                   !! a = Some o' ∧ elems o' = Some l) as (o' & Ha' & He').
  { destruct (decide (this = a)) as [->|Hne].
    - rewrite lookup_insert_eq. eexists. split; [done|]. simpl. congruence.
    - rewrite lookup_insert_ne by done. rewrite lookup_insert_ne by done. eauto. }
  exists a, (fresh (dom h)). eexists _, _, _, _, o'.
  split; [done|]. split; [by eapply placeOrder_exact|].
  split; [by rewrite (orders_of_set_elems h c c this a o)|].
  split; [by eapply cancelOrder_exact|]. simpl.
  split; [|split; [apply fresh_lookup | by split]].
  unfold orders_of; simpl. rewrite lookup_insert_eq. simpl. by rewrite lookup_insert_eq.
Qed.

Lemma place_keeps_array_cancel_swaps_it_witness :
  collection sample 1%positive = Some sample_orders ∧
  ∃ a a' s1 σ1 s2 σ2 o',
    orders_of sample 1%positive = Some a ∧
    placeOrder 1%positive "yuca" "311" sample = Returns s1 σ1 ∧
    orders_of σ1 1%positive = Some a ∧
    cancelOrder 1%positive "311" sample = Returns s2 σ2 ∧
    orders_of σ2 1%positive = Some a' ∧
    heap sample !! a' = None ∧
    heap σ2 !! a = Some o' ∧
    elems o' = Some sample_orders.
Proof.
  split; [reflexivity|].
  apply (place_keeps_array_cancel_swaps_it sample 1%positive "yuca" "311" sample_orders).
  reflexivity.
Defined.

(** ** Sequences of calls on one manager *)

(** X7. Cancelling the same identifier twice leaves what cancelling it once
    leaves, and returns the same string both times. *)
Theorem cancelOrder_idempotent σ this id l :
  collection σ this = Some l →
  ∃ s σ1 σ2 l1,
    cancelOrder this id σ = Returns s σ1 ∧
    collection σ1 this = Some l1 ∧
    cancelOrder this id σ1 = Returns s σ2 ∧
    collection σ2 this = Some l1.
Proof.
  intros Hcol.
  destruct (cancelOrder_spec σ this id l Hcol) as (σ1 & Hrun1 & Hc1 & _).
  destruct (cancelOrder_spec σ1 this id _ Hc1) as (σ2 & Hrun2 & Hc2 & _).
  rewrite filter_strict_neq_remove in Hc1. rewrite !filter_strict_neq_remove in Hc2.
  rewrite remove_idem in Hc2. by eexists _, σ1, σ2, _.
Qed.

Lemma cancelOrder_idempotent_witness :
  collection sample 1%positive = Some sample_orders ∧
  ∃ s σ1 σ2 l1,
    cancelOrder 1%positive "311" sample = Returns s σ1 ∧
    collection σ1 1%positive = Some l1 ∧
    cancelOrder 1%positive "311" σ1 = Returns s σ2 ∧
    collection σ2 1%positive = Some l1.
Proof.
  split; [reflexivity|].
  apply (cancelOrder_idempotent sample 1%positive "311" sample_orders). reflexivity.
Defined.

(** X8. Two cancellations can be made in either order: the collection left
    is the same. *)
Theorem cancelOrder_commutes σ this id1 id2 l :
  collection σ this = Some l →
  ∃ s1 s2 σ1 σ12 σ2 σ21 l',
    cancelOrder this id1 σ = Returns s1 σ1 ∧
    cancelOrder this id2 σ1 = Returns s2 σ12 ∧
    cancelOrder this id2 σ = Returns s2 σ2 ∧
    cancelOrder this id1 σ2 = Returns s1 σ21 ∧
    collection σ12 this = Some l' ∧
    collection σ21 this = Some l'.
Proof.
  intros Hcol.
  destruct (cancelOrder_spec σ this id1 l Hcol) as (σ1 & Hrun1 & Hc1 & _).
  destruct (cancelOrder_spec σ1 this id2 _ Hc1) as (σ12 & Hrun12 & Hc12 & _).
  destruct (cancelOrder_spec σ this id2 l Hcol) as (σ2 & Hrun2 & Hc2 & _).
  destruct (cancelOrder_spec σ2 this id1 _ Hc2) as (σ21 & Hrun21 & Hc21 & _).
  rewrite !filter_strict_neq_remove in Hc12. rewrite !filter_strict_neq_remove in Hc21.
  rewrite remove_remove_comm in Hc21.
  by eexists _, _, σ1, σ12, σ2, σ21, _.
Qed.

Lemma cancelOrder_commutes_witness :
  collection sample 1%positive = Some sample_orders ∧
  ∃ s1 s2 σ1 σ12 σ2 σ21 l',
    cancelOrder 1%positive "311" sample = Returns s1 σ1 ∧
    cancelOrder 1%positive "42" σ1 = Returns s2 σ12 ∧
    cancelOrder 1%positive "42" sample = Returns s2 σ2 ∧
    cancelOrder 1%positive "311" σ2 = Returns s1 σ21 ∧
    collection σ12 1%positive = Some l' ∧
    collection σ21 1%positive = Some l'.
Proof.
  split; [reflexivity|].
  apply (cancelOrder_commutes sample 1%positive "311" "42" sample_orders). reflexivity.
Defined.

(** X9. [cancelOrder(id)] after [placeOrder(order, id)] removes the new
    entry and every earlier entry for [id] with it: the collection is the
    original one without [id], so the two calls restore the original
    collection exactly when [id] was not stored before. *)
Theorem place_then_cancel_any σ this order id l :
  collection σ this = Some l →
  ∃ s1 σ1 s2 σ2 l2,
    placeOrder this order id σ = Returns s1 σ1 ∧
    cancelOrder this id σ1 = Returns s2 σ2 ∧
    collection σ2 this = Some l2 ∧
    l2 = remove value_eq_dec (VString id) l ∧
    (l2 = l ↔ VString id ∉ l).
Proof.
  intros Hcol.
  destruct (placeOrder_spec σ this order id l Hcol) as (σ1 & Hrun1 & Hc1 & _).
  destruct (cancelOrder_spec σ1 this id _ Hc1) as (σ2 & Hrun2 & Hc2 & _).
  rewrite filter_strict_neq_remove, remove_snoc_same in Hc2.
  eexists _, σ1, _, σ2, _. split; [done|]. split; [done|]. split; [done|].
  split; [done | apply remove_fixed_iff].
Qed.

Lemma place_then_cancel_any_witness :
  collection sample 1%positive = Some sample_orders ∧
  ∃ s1 σ1 s2 σ2 l2,
    placeOrder 1%positive "yuca" "42" sample = Returns s1 σ1 ∧
    cancelOrder 1%positive "42" σ1 = Returns s2 σ2 ∧
    collection σ2 1%positive = Some l2 ∧
    l2 = remove value_eq_dec (VString "42") sample_orders ∧
    (l2 = sample_orders ↔ VString "42" ∉ sample_orders).
Proof.
  split; [reflexivity|].
  apply (place_then_cancel_any sample 1%positive "yuca" "42" sample_orders). reflexivity.
Defined.

(** X10. [cancelOrder(id)] shortens the collection by the number of times
    [id] was stored; it never lengthens it. *)
Theorem cancelOrder_length σ this id l :
  collection σ this = Some l →
  ∃ s σ' l',
    cancelOrder this id σ = Returns s σ' ∧
    collection σ' this = Some l' ∧
    length l' + occurrences id l = length l.
Proof.
  intros Hcol. destruct (cancelOrder_spec σ this id l Hcol) as (σ' & Hrun & Hc & _).
  rewrite filter_strict_neq_remove in Hc.
  eexists _, σ', _. split; [done|]. split; [done|]. apply remove_length_count.
Qed.

Lemma cancelOrder_length_witness :
  collection sample 1%positive = Some sample_orders ∧
  ∃ s σ' l',
    cancelOrder 1%positive "311" sample = Returns s σ' ∧
    collection σ' 1%positive = Some l' ∧
    length l' + occurrences "311" sample_orders = length sample_orders.
Proof.
  split; [reflexivity|].
  apply (cancelOrder_length sample 1%positive "311" sample_orders). reflexivity.
Defined.

(** ** Commands outside their intended use *)

(** X11. The behaviour of a [PlaceOrderCommand] or [CancelOrderCommand]
    called on anything but an array (no argument at all, a primitive, a
    plain object) throws a [TypeError] before it logs, and changes nothing;
    the behaviour of a [TrackOrderCommand] does not look at its argument and
    logs its line. *)
Theorem commands_need_an_array σ order id args :
  not_an_array σ (arg 0 args) = true →
  cmd_execute (PlaceOrderCommand order id) args σ = Throws TypeError σ ∧
  cmd_execute (CancelOrderCommand id) args σ = Throws TypeError σ ∧
  cmd_execute (TrackOrderCommand id) args σ =
    Returns VUndefined
      (State (heap σ) (console σ ++ ["Your order " +:+ id +:+ " will arrive in 20 minutes."])).
Proof.
  intros Hna. split; [|split; [|done]]; simpl; unfold bind.
  - destruct (arg 0 args) as [| | s|b]; try done. simpl in *.
    destruct (heap σ !! b) as [[f [es|]]|]; try done.
  - destruct (arg 0 args) as [| | s|b]; try done. simpl in *.
    destruct (heap σ !! b) as [[f [es|]]|]; try done.
Qed.

Lemma commands_need_an_array_witness :
  not_an_array sample (arg 0 []) = true ∧
  cmd_execute (PlaceOrderCommand "yuca" "7") [] sample = Throws TypeError sample ∧
  cmd_execute (CancelOrderCommand "7") [] sample = Throws TypeError sample ∧
  cmd_execute (TrackOrderCommand "7") [] sample =
    Returns VUndefined
      (State (heap sample)
             (console sample ++ ["Your order " +:+ "7" +:+ " will arrive in 20 minutes."])).
Proof.
  split; [reflexivity|].
  apply (commands_need_an_array sample "yuca" "7" []). reflexivity.
Defined.

(** The test of [CancelOrderCommand] on an element that is a string or an
    existing object. *)
Lemma cancel_test_readable v id σ :
  nullish v = false → readable σ v = true →
  (let! order_id := get_field v "id" in
   ret (strict_neq order_id (VString id))) σ =
    Returns (strict_neq (id_of σ v) (VString id)) σ.
Proof.
  intros Hn Hr. destruct v as [| | s|b]; try done. simpl in *.
  apply bool_decide_eq_true in Hr as [o Hb]. unfold bind, get_field, ret. by rewrite Hb.
Qed.

(** X12. On a collection of strings and objects, the executed
    [CancelOrderCommand(id)] does evaluate its test: the array it builds
    holds exactly the elements whose [id] property differs from [id].  The
    manager's collection is the original one all the same, since that array
    is only assigned to the parameter. *)
Theorem cancel_command_result_is_dropped σ this id args l :
  collection σ this = Some l →
  forallb (λ v, negb (nullish v) && readable σ v) l = true →
  ∃ σ', execute this (CancelOrderCommand id) args σ = Returns VUndefined σ' ∧
        collection σ' this = Some l ∧
        heap σ' = <[fresh (dom (heap σ)) :=
                      array_of (List.filter (λ v, strict_neq (id_of σ v) (VString id)) l)]>
                    (heap σ) ∧
        console σ' = console σ ++ ["You have canceled your order " +:+ id].
Proof.
  intros Hcol Hok. pose proof Hcol as (a & o & Ho & Ha & He)%collection_Some.
  rewrite (execute_unfold _ _ _ _ _ Ho). simpl. unfold arg; simpl.
  erewrite bind_Returns; last first.
  { eapply (array_filter_pure _ _ _ _ _ (λ v, strict_neq (id_of σ v) (VString id)));
      [done..|].
    intros x Hx. rewrite forallb_forall in Hok.
    apply list_elem_of_In, Hok, andb_true_iff in Hx as [Hn Hr].
    apply cancel_test_readable; [by apply negb_true_iff | done]. }
  unfold bind, console_log, ret; simpl.
  eexists. split; [done|]. simpl. split; [|done].
  apply (collection_weaken σ); [|done]. simpl. apply insert_subseteq, fresh_lookup.
Qed.

Lemma cancel_command_result_is_dropped_witness :
  collection sample_objects 1%positive = Some [VRef 3%positive] ∧
  forallb (λ v, negb (nullish v) && readable sample_objects v) [VRef 3%positive] = true ∧
  ∃ σ', execute 1%positive (CancelOrderCommand "1234") [] sample_objects =
          Returns VUndefined σ' ∧
        collection σ' 1%positive = Some [VRef 3%positive] ∧
        heap σ' = <[fresh (dom (heap sample_objects)) :=
                      array_of (List.filter
                                  (λ v, strict_neq (id_of sample_objects v) (VString "1234"))
                                  [VRef 3%positive])]>
                    (heap sample_objects) ∧
        console σ' = console sample_objects ++ ["You have canceled your order " +:+ "1234"].
Proof.
  split; [reflexivity|]. split; [reflexivity|].
  apply (cancel_command_result_is_dropped sample_objects 1%positive "1234" []
           [VRef 3%positive]); reflexivity.
Defined.

Lemma filter_elems_nullish id es σ :
  forallb (readable σ) es = true →
  existsb nullish es = true →
  filter_elems (λ order, let! order_id := get_field order "id" in
                         ret (strict_neq order_id (VString id))) es σ = Throws TypeError σ.
Proof.
  induction es as [|x es IH]; [done|]. simpl.
  intros [Hr Hrs]%andb_true_iff Hex.
  destruct (nullish x) eqn:Hn.
  - apply bind_Throws. by destruct x.
  - rewrite (bind_Returns _ _ _ _ _ (cancel_test_readable x id σ Hn Hr)).
    apply bind_Throws. by apply IH.
Qed.

(** X13. When the collection holds [undefined] or [null], the executed
    [CancelOrderCommand] throws a [TypeError]: reading [order.id] fails on
    that element.  Nothing is logged and the state is the one before the
    call.  ([cancelOrder] compares the element itself and returns on any
    collection.) *)
Theorem cancel_command_throws_on_nullish σ this id args l :
  collection σ this = Some l →
  forallb (readable σ) l = true →
  existsb nullish l = true →
  execute this (CancelOrderCommand id) args σ = Throws TypeError σ ∧
  returns (cancelOrder this id) σ.
Proof.
  intros Hcol Hr Hex. split.
  - pose proof Hcol as (a & o & Ho & Ha & He)%collection_Some.
    rewrite (execute_unfold _ _ _ _ _ Ho). simpl. unfold arg; simpl.
    apply bind_Throws. unfold array_filter. rewrite Ha.
    destruct o as [f e]; simpl in *; subst e.
    apply bind_Throws. by apply filter_elems_nullish.
  - destruct (cancelOrder_spec σ this id l Hcol) as (σ' & Hrun & _).
    unfold returns. eauto.
Qed.

Lemma cancel_command_throws_on_nullish_witness :
  collection sample_hole 1%positive = Some [VString "311"; VUndefined] ∧
  forallb (readable sample_hole) [VString "311"; VUndefined] = true ∧
  existsb nullish [VString "311"; VUndefined] = true ∧
  execute 1%positive (CancelOrderCommand "311") [] sample_hole =
    Throws TypeError sample_hole ∧
  returns (cancelOrder 1%positive "311") sample_hole.
Proof.
  split; [reflexivity|]. split; [reflexivity|]. split; [reflexivity|].
  apply (cancel_command_throws_on_nullish sample_hole 1%positive "311" []
           [VString "311"; VUndefined]); reflexivity.
Defined.

(** ** The whole script *)

Lemma orders_of_weaken σ σ' m a :
  heap σ ⊆ heap σ' → orders_of σ m = Some a → orders_of σ' m = Some a.
Proof.
  intros Hsub. unfold orders_of. destruct (heap σ !! m) as [om|] eqn:Hm; [|done].
  by rewrite (lookup_weaken _ _ _ _ Hm Hsub).
Qed.

Lemma main_direct_spec σ0 :
  ∃ manager σ, main_direct σ0 = Returns manager σ ∧
               collection σ manager = Some [] ∧
               console σ = console σ0.
Proof.
  destruct (new_OrderManager_spec σ0) as (manager & σ1 & Hnew & Hc1 & Hlog1 & _).
  destruct (placeOrder_spec σ1 manager "yuca" "311" [] Hc1) as (σ2 & Hplace & Hc2 & Hlog2).
  destruct (cancelOrder_spec σ2 manager "311" _ Hc2) as (σ3 & Hcancel & Hc3 & Hlog3).
  exists manager, σ3. split; [|split; [exact Hc3 | congruence]].
  unfold main_direct. rewrite (bind_Returns _ _ _ _ _ Hnew).
  rewrite (bind_Returns _ _ _ _ _ Hplace).
  rewrite (bind_Returns _ _ _ "Your order 311 will arrive in 20 minutes." σ2) by done.
  by rewrite (bind_Returns _ _ _ _ _ Hcancel).
Qed.

Lemma main_dispatch_spec σ :
  ∃ manager2 σ', main_dispatch σ = Returns manager2 σ' ∧
                 heap σ !! manager2 = None ∧
                 collection σ' manager2 = Some [VString "1234"] ∧
                 console σ' = console σ ++ ["You have successfully ordered Pad Thai (1234)";
                                            "Your order 1234 will arrive in 20 minutes.";
                                            "You have canceled your order 1234"] ∧
                 ∀ m l, collection σ m = Some l → collection σ' m = Some l.
Proof.
  destruct (new_OrderManager_grows σ)
    as (m2 & a2 & σ1 & Hnew & Hm2 & Ha2 & Hne & Ho2 & Hc1 & Hlog1 & Hsub).
  pose proof Hc1 as (a2' & o2 & Ho2' & Hao2 & He2)%collection_Some.
  rewrite Ho2 in Ho2'. injection Ho2' as <-.
  pose proof (execute_PlaceOrderCommand_exact σ1 m2 "Pad Thai" "1234" [] a2 o2 [] Ho2 Hao2 He2)
    as Hplace.
  destruct σ1 as [h1 c1]; simpl in *.
  set (σ2 := State (<[a2 := Obj (fields o2) (Some [VString "1234"])]> h1)
                   (c1 ++ ["You have successfully ordered " +:+ "Pad Thai" +:+ " (" +:+ "1234" +:+ ")"]))
    in *.
  assert (orders_of σ2 m2 = Some a2) as Ho2'.
  { unfold σ2. by rewrite (orders_of_set_elems h1 c1 _ m2 a2 o2). }
  assert (collection σ2 m2 = Some [VString "1234"]) as Hc2.
  { apply collection_Some. eexists a2, _. split; [done|]. simpl.
    by rewrite lookup_insert_eq. }
  pose proof (execute_TrackOrderCommand_spec σ2 m2 "1234" [] a2 Ho2') as Htrack.
  set (σ3 := State (heap σ2)
                   (console σ2 ++ ["Your order " +:+ "1234" +:+ " will arrive in 20 minutes."]))
    in *.
  assert (collection σ3 m2 = Some [VString "1234"]) as Hc3.
  { rewrite <- Hc2. by apply collection_heap. }
  destruct (execute_CancelOrderCommand_spec σ3 m2 "1234" [] _ Hc3 eq_refl)
    as (σ4 & Hcancel & Hheap4 & Hc4 & _ & Hlog4).
  exists m2, σ4. split; [|split; [done|split; [done|split]]].
  - unfold main_dispatch. erewrite bind_Returns; [|exact Hnew].
    rewrite (bind_Returns _ _ _ _ _ Hplace). rewrite (bind_Returns _ _ _ _ _ Htrack).
    by rewrite (bind_Returns _ _ _ _ _ Hcancel).
  - rewrite Hlog4. simpl. rewrite Hlog1. by rewrite <- !app_assoc.
  - intros m l Hm.
    pose proof Hm as (am & om & Hom & Ham & _)%collection_Some.
    assert (collection σ2 m = Some l) as Hm2'.
    { pose proof (placeOrder_other_manager h1 c1 m2 a2 o2 [] (VString "1234") m l
                    Ho2 Hao2 He2 (collection_weaken σ (State h1 c1) m l Hsub Hm)) as Hpm.
      rewrite (orders_of_weaken σ (State h1 c1) m am Hsub Hom), Ho2 in Hpm.
      rewrite decide_False in Hpm by congruence.
      rewrite <- Hpm. by apply collection_heap. }
    apply (collection_weaken σ3); [|by rewrite <- Hm2'; apply collection_heap].
    rewrite Hheap4. apply insert_subseteq, fresh_lookup.
Qed.

(** X14. Run from any state, the script returns two distinct managers: the
    first ends with an empty collection, the second still holds 1234 after
    its [CancelOrderCommand], and exactly the three lines of the commands
    are logged, in order; the methods of the first manager log nothing. *)
Theorem main_outcome σ0 :
  ∃ manager manager2 σ,
    main σ0 = Returns (manager, manager2) σ ∧
    manager ≠ manager2 ∧
    collection σ manager = Some [] ∧
    collection σ manager2 = Some [VString "1234"] ∧
    console σ = console σ0 ++ ["You have successfully ordered Pad Thai (1234)";
                               "Your order 1234 will arrive in 20 minutes.";
                               "You have canceled your order 1234"].
Proof.
  destruct (main_direct_spec σ0) as (manager & σ1 & Hdirect & Hc1 & Hlog1).
  destruct (main_dispatch_spec σ1) as (manager2 & σ2 & Hdispatch & Hfresh & Hc2 & Hlog2 & Hframe).
  exists manager, manager2, σ2. split; [|split; [|split; [by apply Hframe|split]]].
  - unfold main. rewrite (bind_Returns _ _ _ _ _ Hdirect).
    by rewrite (bind_Returns _ _ _ _ _ Hdispatch).
  - intros ->. apply collection_Some in Hc1 as (a & o & Ho & _).
    destruct (orders_of_allocated _ _ _ Ho) as [ot Hot]. congruence.
  - done.
  - by rewrite Hlog2, Hlog1.
Qed.

(** ** Any sequence of calls *)

(** X15. Whatever sequence of [placeOrder], [trackOrder] and [cancelOrder]
    calls is made on a manager, every call returns, nothing is logged, and
    the collection is the one obtained by treating each [placeOrder] as an
    append, each [cancelOrder] as the removal of all occurrences and each
    [trackOrder] as nothing; a collection of strings stays one. *)
Theorem perform_all_refines_lists cs : ∀ σ this l,
  collection σ this = Some l →
  ∃ ss σ',
    perform_all this cs σ = Returns ss σ' ∧
    length ss = length cs ∧
    collection σ' this = Some (fold_left after_call cs l) ∧
    console σ' = console σ ∧
    (forallb is_string l = true → forallb is_string (fold_left after_call cs l) = true).
Proof.
  induction cs as [|c cs IH]; intros σ this l Hcol.
  - by exists [], σ.
  - assert (∃ s σ1, perform this c σ = Returns s σ1 ∧
                    collection σ1 this = Some (after_call l c) ∧
                    console σ1 = console σ ∧
                    (forallb is_string l = true →
                     forallb is_string (after_call l c) = true))
      as (s & σ1 & Hrun & Hc1 & Hlog1 & Hstr1).
    { destruct c as [order id|id|id]; simpl.
      - destruct (placeOrder_spec σ this order id l Hcol) as (σ1 & Hrun & Hc1 & Hlog1).
        eexists _, σ1. split; [done|]. split; [done|]. split; [done|].
        intros Hs. rewrite forallb_app, Hs. done.
      - eexists _, σ. by split.
      - destruct (cancelOrder_spec σ this id l Hcol) as (σ1 & Hrun & Hc1 & Hlog1).
        rewrite filter_strict_neq_remove in Hc1.
        eexists _, σ1. split; [done|]. split; [done|]. split; [done|].
        rewrite !forallb_forall. intros Hs x Hx. apply Hs.
        by apply in_remove in Hx as [Hx _]. }
    destruct (IH σ1 this _ Hc1) as (ss & σ' & Hrest & Hlen & Hc' & Hlog' & Hstr').
    exists (s :: ss), σ'. split; [|split; [|split; [|split]]].
    + simpl. rewrite (bind_Returns _ _ _ _ _ Hrun).
      by rewrite (bind_Returns _ _ _ _ _ Hrest).
    + simpl. by rewrite Hlen.
    + done.
    + congruence.
    + intros Hs. simpl. auto.
Qed.

Lemma perform_all_refines_lists_witness :
  collection sample 1%positive = Some sample_orders ∧
  ∃ ss σ',
    perform_all 1%positive [CancelOrder "311"; PlaceOrder "yuca" "7"; TrackOrder "8"] sample =
      Returns ss σ' ∧
    length ss = length [CancelOrder "311"; PlaceOrder "yuca" "7"; TrackOrder "8"] ∧
    collection σ' 1%positive =
      Some (fold_left after_call [CancelOrder "311"; PlaceOrder "yuca" "7"; TrackOrder "8"]
              sample_orders) ∧
    console σ' = console sample ∧
    (forallb is_string sample_orders = true →
     forallb is_string
       (fold_left after_call [CancelOrder "311"; PlaceOrder "yuca" "7"; TrackOrder "8"]
          sample_orders) = true).
Proof.
  split; [reflexivity|].
  apply (perform_all_refines_lists [CancelOrder "311"; PlaceOrder "yuca" "7"; TrackOrder "8"]
           sample 1%positive sample_orders).
  reflexivity.
Defined.

(** X16. Whatever sequence of factory commands is executed on a dispatching
    manager whose collection holds strings, every [execute] returns, the
    manager keeps its array, and the collection only grows: it is the
    original one followed by the identifiers of the [PlaceOrderCommand]s in
    order, so no [CancelOrderCommand] ever takes anything out.  One line is
    logged per command. *)
Theorem execute_all_only_grows fs : ∀ σ this l,
  collection σ this = Some l →
  forallb is_string l = true →
  ∃ σ',
    execute_all this fs σ = Returns () σ' ∧
    collection σ' this = Some (l ++ placed fs) ∧
    orders_of σ' this = orders_of σ this ∧
    forallb is_string (l ++ placed fs) = true ∧
    console σ' = console σ ++ map log_line fs.
Proof.
  induction fs as [|f fs IH]; intros σ this l Hcol Hstr.
  - exists σ. simpl. rewrite !app_nil_r. done.
  - assert (∃ σ1, execute this (command_of f) [] σ = Returns VUndefined σ1 ∧
                  collection σ1 this = Some (l ++ placed [f]) ∧
                  orders_of σ1 this = orders_of σ this ∧
                  console σ1 = console σ ++ [log_line f])
      as (σ1 & Hrun & Hc1 & Ho1 & Hlog1).
    { pose proof Hcol as (a & o & Ho & Ha & He)%collection_Some.
      destruct f as [order id|id|id]; simpl.
      - eexists. split; [by eapply execute_PlaceOrderCommand_exact|].
        destruct σ as [h c]; simpl in *. split; [|split; [|done]].
        + apply collection_Some. eexists a, _. split.
          * by rewrite (orders_of_set_elems h c _ this a o).
          * simpl. by rewrite lookup_insert_eq.
        + by rewrite (orders_of_set_elems h c _ this a o).
      - eexists. split; [by eapply execute_TrackOrderCommand_spec|].
        rewrite app_nil_r. split; [|done]. rewrite <- Hcol. by apply collection_heap.
      - destruct (execute_CancelOrderCommand_spec σ this id [] l Hcol Hstr)
          as (σ1 & Hrun & _ & Hc1 & Ho1 & Hlog1).
        exists σ1. by rewrite app_nil_r. }
    assert (forallb is_string (l ++ placed [f]) = true) as Hstr1.
    { rewrite forallb_app, Hstr. by destruct f. }
    destruct (IH σ1 this _ Hc1 Hstr1) as (σ' & Hrest & Hc' & Ho' & Hstr' & Hlog').
    assert ((l ++ placed [f]) ++ placed fs = l ++ placed (f :: fs)) as Heq.
    { rewrite <- app_assoc. by destruct f. }
    rewrite Heq in Hc', Hstr'.
    exists σ'. split; [|split; [done|split; [congruence|split; [done|]]]].
    + simpl. by rewrite (bind_Returns _ _ _ _ _ Hrun).
    + rewrite Hlog', Hlog1. simpl. by rewrite <- app_assoc.
Qed.

Lemma execute_all_only_grows_witness :
  collection sample 1%positive = Some sample_orders ∧
  forallb is_string sample_orders = true ∧
  ∃ σ',
    execute_all 1%positive [Cancel "311"; Place "yuca" "7"; Track "8"] sample =
      Returns () σ' ∧
    collection σ' 1%positive =
      Some (sample_orders ++ placed [Cancel "311"; Place "yuca" "7"; Track "8"]) ∧
    orders_of σ' 1%positive = orders_of sample 1%positive ∧
    forallb is_string
      (sample_orders ++ placed [Cancel "311"; Place "yuca" "7"; Track "8"]) = true ∧
    console σ' = console sample ++ map log_line [Cancel "311"; Place "yuca" "7"; Track "8"].
Proof.
  split; [reflexivity|]. split; [reflexivity|].
  apply (execute_all_only_grows [Cancel "311"; Place "yuca" "7"; Track "8"]
           sample 1%positive sample_orders); reflexivity.
Defined.
